(** * AsyncSchwab: the client facade of [asyncschwab/client.py]

    A shallow embedding of [Client]: its constructor, the background
    token checker, the asynchronous context-manager protocol
    ([__aenter__] / [__aexit__]) and the three parameter helpers
    ([_params_parser], [_time_convert], [_format_list]).

    Python objects that the code shares by reference (the [params]
    dictionary) live in an explicit heap; effects on the outside world
    (sessions opened and closed, calls to the credential store, sleeps)
    are recorded in a chronological trace. *)

From Stdlib Require Import Ascii String.
From stdpp Require Import gmap strings list fin_maps.

Local Open Scope string_scope.
Local Open Scope list_scope.
Local Open Scope Z_scope.

(** ** Python values and exceptions *)

(** Exceptions that the modelled code raises or lets through. *)
#[warnings="-register-all"]
Inductive exn : Type :=
| Exception (msg : string)
| AttributeError (msg : string)
| KeyError (key : string)
| TypeError (msg : string)
| CancelledError
| BaseExceptionGroup (msg : string) (errors : list exn).

(** A Python call either returns a value or raises. *)
Inductive pyresult (A : Type) : Type :=
| Ok (a : A)
| Raise (e : exn).
Arguments Ok {A} a.
Arguments Raise {A} e.

#[global] Instance pyresult_ret : MRet pyresult := λ A a, Ok a.

(** Sequencing: an exception raised by the first call skips the rest. *)
#[global] Instance pyresult_bind : MBind pyresult := λ A B k m,
  match m with
  | Ok a => k a
  | Raise e => Raise e
  end.

(** [datetime.datetime]: the fields of the object. *)
Record datetime : Type := {
  year : Z; month : Z; day : Z;
  hour : Z; minute : Z; second : Z; microsecond : Z;
  utcoffset : option Z
}.

(** The values the helpers tell apart: [None], the scalars, lists,
    [datetime] objects, and any other object (known by its identity). *)
#[warnings="-register-all"]
Inductive pyval : Type :=
| PyNone
| PyBool (b : bool)
| PyInt (z : Z)
| PyStr (s : string)
| PyList (items : list pyval)
| PyDatetime (d : datetime)
| PyObject (id : nat).

Definition is_None (v : pyval) : bool :=
  match v with PyNone => true | _ => false end.

(** [isinstance(v, datetime.datetime)] *)
Definition is_datetime (v : pyval) : bool :=
  match v with PyDatetime _ => true | _ => false end.

(** [isinstance(v, list)] *)
Definition is_list (v : pyval) : bool :=
  match v with PyList _ => true | _ => false end.

(** ** String primitives used by the helpers *)

(** [s.split(sep)[0]]: the part of [s] before the first [sep]. *)
Fixpoint split_head (sep : ascii) (s : string) : string :=
  match s with
  | EmptyString => EmptyString
  | String c rest =>
      if Ascii.eqb c sep then EmptyString else String c (split_head sep rest)
  end.

(** [s[:-n]] for [n > 0]: [s] without its last [n] characters. *)
Definition drop_last (n : nat) (s : string) : string :=
  String.substring 0 (String.length s - n) s.

(** [sep.join(items)]: every item must be a [str]; the first one that is
    not makes [join] raise [TypeError]. *)
Fixpoint str_items (items : list pyval) : pyresult (list string) :=
  match items with
  | [] => Ok []
  | PyStr s :: rest => ss ← str_items rest; Ok (s :: ss)
  | _ :: _ => Raise (TypeError "sequence item: expected str instance")
  end.

Definition str_join (sep : string) (items : list pyval) : pyresult pyval :=
  ss ← str_items items; Ok (PyStr (String.concat sep ss)).

(** The methods of [datetime.datetime] that [_time_convert] calls, and
    the float arithmetic applied to a timestamp. They belong to the
    Python standard library, so they are an interface here. *)
Class DatetimeLib : Type := {
  pyfloat : Type;
  isoformat : datetime → string;
  timestamp : datetime → pyfloat;
  float_mul : pyfloat → Z → pyfloat;
  int_of_float : pyfloat → Z;
  strftime : datetime → string → string
}.

(** ** The parameter helpers *)

Section Helpers.
Context `{DatetimeLib}.

(** [Client._time_convert(dt, form)] *)
Definition _time_convert (dt : pyval) (form : string) : pyval :=
  match dt with
  | PyDatetime d =>
      if String.eqb form "8601" then
        PyStr (drop_last 3 (split_head "+"%char (isoformat d)) +:+ "Z")
      else if String.eqb form "epoch" then
        PyInt (int_of_float (timestamp d))
      else if String.eqb form "epoch_ms" then
        PyInt (int_of_float (float_mul (timestamp d) 1000))
      else if String.eqb form "YYYY-MM-DD" then
        PyStr (strftime d "%Y-%m-%d")
      else dt
  | _ => dt
  end.
End Helpers.

(** [Client._format_list(l)] *)
Definition _format_list (l : pyval) : pyresult pyval :=
  match l with
  | PyNone => Ok PyNone
  | PyList items => str_join "," items
  | _ => Ok l
  end.

(** A dictionary object is shared by reference: the heap maps the
    identity of each dictionary to its current contents. *)
Abbreviation pydict := (gmap string pyval).
Abbreviation heap := (gmap nat (gmap string pyval)).

(** One turn of the loop of [_params_parser]:
    [if params[key] is None: del params[key]]. The dictionary is updated
    in place, so the state of the loop is its current contents together
    with the exception raised so far, if any: subscripting with a key
    that is absent raises [KeyError] and leaves the loop. *)
Definition params_step (st : pydict * option exn) (key : string)
  : pydict * option exn :=
  match st with
  | (d, Some e) => (d, Some e)
  | (d, None) =>
      match d !! key with
      | None => (d, Some (KeyError key))
      | Some v => if is_None v then (delete key d, None) else (d, None)
      end
  end.

(** [list(params.keys())]: the keys, copied before the loop starts. *)
Definition keys_snapshot (d : pydict) : list string := (map_to_list d).*1.

(** The loop over the snapshot, on the contents of the dictionary. *)
Definition params_loop (d : pydict) : pydict * option exn :=
  foldl params_step (d, None) (keys_snapshot d).

(** [Client._params_parser(params)]: [params] is a reference to a
    dictionary of the heap [h]; that dictionary is updated in place and
    the same reference is returned. A reference always designates an
    object: on an identity that the heap does not hold there is no call
    to model ([None]). *)
Definition _params_parser (params : nat) (h : heap)
  : option (pyresult nat * heap) :=
  d ← h !! params;
  let '(d', err) := params_loop d in
  Some (match err with None => Ok params | Some e => Raise e end,
        <[params := d']> h).

(** ** The client object and the outside world *)

(** What [self._session] holds: a session object (known by its
    identity) or the module-level function [aiohttp.request]. *)
Inductive transport : Type :=
| ClientSession (id : nat)
| aiohttp_request.

(** Effects on the outside world, in the order in which they happen. *)
Inductive event : Type :=
| NewClientSession (id : nat)   (* [aiohttp.ClientSession()] *)
| NewTokens                     (* [Tokens(self, ...)] *)
| NewStream                     (* [Stream(self)] *)
| LogInfo (msg : string)        (* [self.logger.info(msg)] *)
| UpdateTokens                  (* [self.tokens.update_tokens()] *)
| Sleep (delay : Z)             (* [await asyncio.sleep(delay)] *)
| TaskCancel                    (* [task.cancel()] on a pending task *)
| SessionClose (id : nat).      (* [await session.close()] *)

(** The coroutine [checker] wrapped in an [asyncio.Task]: created and
    not yet run, suspended in [asyncio.sleep] until [wake_at], or done.
    [checker] has no [return], so a finished task was cancelled or
    ended with an exception. *)
Inductive task_state : Type :=
| Created
| Suspended (wake_at : Z)
| Cancelled
| Failed (e : exn).

Record Task : Type := {
  _state : task_state;
  _must_cancel : bool
}.

(** The fields of [asyncio.TaskGroup] that its exit reads. *)
Record TaskGroup : Type := {
  _errors : list exn;
  _parent_cancel_requested : bool;
  _aborting : bool
}.

(** The attributes of a [Client] instance. An attribute that no
    statement has assigned is absent ([None]): reading it raises
    [AttributeError]. *)
Record Client : Type := {
  version : string;
  timeout : Z;
  _session : transport;
  use_session : option bool;
  _task_group : option TaskGroup;
  _checker_task : option Task
}.

(** The outside world: the time of the event loop (in seconds) and the
    trace of the effects so far. *)
Record world : Type := {
  now : Z;
  trace : list event
}.

(** A client in its world. *)
Record state : Type := {
  self : Client;
  env : world
}.

Definition log (e : event) (w : world) : world :=
  {| now := now w; trace := trace w ++ [e] |}.

Definition emit (e : event) (s : state) : state :=
  {| self := self s; env := log e (env s) |}.

Definition with_self (c : Client) (s : state) : state :=
  {| self := c; env := env s |}.

Definition with_now (t : Z) (s : state) : state :=
  {| self := self s; env := {| now := t; trace := trace (env s) |} |}.

Definition set__session (t : transport) (c : Client) : Client :=
  {| version := version c; timeout := timeout c; _session := t;
     use_session := use_session c; _task_group := _task_group c;
     _checker_task := _checker_task c |}.

Definition set__task_group (g : TaskGroup) (c : Client) : Client :=
  {| version := version c; timeout := timeout c; _session := _session c;
     use_session := use_session c; _task_group := Some g;
     _checker_task := _checker_task c |}.

Definition set__checker_task (t : Task) (c : Client) : Client :=
  {| version := version c; timeout := timeout c; _session := _session c;
     use_session := use_session c; _task_group := _task_group c;
     _checker_task := Some t |}.

(** Observations on a trace. *)
Definition is_NewClientSession (e : event) : bool :=
  match e with NewClientSession _ => true | _ => false end.
Definition is_UpdateTokens (e : event) : bool :=
  match e with UpdateTokens => true | _ => false end.
Definition is_SessionClose (e : event) : bool :=
  match e with SessionClose _ => true | _ => false end.

Definition count_events (p : event → bool) (tr : list event) : nat :=
  length (List.filter p tr).

(** Sessions constructed so far, calls to [update_tokens] so far. *)
Definition sessions_opened (tr : list event) : nat :=
  count_events is_NewClientSession tr.
Definition refresh_calls (tr : list event) : nat :=
  count_events is_UpdateTokens tr.
Definition closes (tr : list event) : list event :=
  List.filter is_SessionClose tr.

(** [aiohttp.ClientSession()]: a session that did not exist before. *)
Definition new_ClientSession (w : world) : transport * world :=
  let id := sessions_opened (trace w) in
  (ClientSession id, log (NewClientSession id) w).

(** ** Construction *)

(** Modelled from the spec: the constructor of [Tokens], the credential
    store, whose module [tokens.py] is not part of the sources. It
    builds the store and leaves the attributes of the client alone. *)
Definition Tokens (w : world) : world := log NewTokens w.

(** Modelled from the spec: the constructor of [Stream], whose module
    [stream.py] is not part of the sources. It builds the streaming
    object and leaves the attributes of the client alone. *)
Definition Stream (w : world) : world := log NewStream w.

(** [Client.__init__]. The constructor assigns [version], [timeout],
    [logger], [_session], [tokens] and [stream]; it never assigns
    [self.use_session], [self._task_group] or [self._checker_task]. *)
Definition __init__ (app_key app_secret callback_url tokens_file : string)
    (timeout : Z) (capture_callback use_session : bool)
    (call_on_notify : option nat) (w : world) : pyresult Client * world :=
  if timeout <=? 0 then
    (Raise (Exception
       "Timeout must be greater than 0 and is recommended to be 5 seconds or more."),
     w)
  else
    let '(session, w) :=
      if use_session then new_ClientSession w else (aiohttp_request, w) in
    let w := Tokens w in
    let w := Stream w in
    let w := log (LogInfo "Client Initialization Complete") w in
    (Ok {| version := "Schwabdev 2.5.0"; timeout := timeout;
           _session := session; use_session := None;
           _task_group := None; _checker_task := None |},
     w).

(** ** The token checker *)

(** What one call of [self.tokens.update_tokens()] does: it returns a
    boolean or raises. *)
Inductive outcome : Type :=
| Returns (b : bool)
| Raises (e : exn).

(** Reading the attribute [self.use_session]. *)
Definition get_use_session (c : Client) : pyresult bool :=
  match use_session c with
  | Some b => Ok b
  | None => Raise (AttributeError "'Client' object has no attribute 'use_session'")
  end.

(** [self.tokens.update_tokens() and self.use_session]: the right
    operand is evaluated only when the left one is true. *)
Definition checker_condition (o : outcome) (c : Client) : pyresult bool :=
  match o with
  | Raises e => Raise e
  | Returns false => Ok false
  | Returns true => get_use_session c
  end.

Definition is_CancelledError (e : exn) : bool :=
  match e with CancelledError => true | _ => false end.

(** [TaskGroup._on_task_done] for a task that ended with the exception
    [e]: the error is recorded; unless the group is aborting already, it
    aborts and asks for the cancellation of the task that entered it. *)
Definition _on_task_done (e : exn) (g : TaskGroup) : TaskGroup :=
  if _aborting g || _parent_cancel_requested g then
    {| _errors := _errors g ++ [e];
       _parent_cancel_requested := _parent_cancel_requested g;
       _aborting := _aborting g |}
  else
    {| _errors := _errors g ++ [e];
       _parent_cancel_requested := true;
       _aborting := true |}.

(** The task ends in [st] (cancelled, or failed with an exception). *)
Definition task_done (st : task_state) (s : state) : state :=
  let c := self s in
  let c := set__checker_task {| _state := st; _must_cancel := false |} c in
  let c := match st, _task_group c with
           | Failed e, Some g => set__task_group (_on_task_done e g) c
           | _, _ => c
           end in
  with_self c s.

(** The coroutine reaches [await asyncio.sleep(30)] and is suspended. *)
Definition checker_sleep (s : state) : state :=
  let s := emit (Sleep 30) s in
  with_self
    (set__checker_task
       {| _state := Suspended (now (env s) + 30); _must_cancel := false |}
       (self s)) s.

(** How a task ends when its coroutine raises [e]: [asyncio] marks it
    cancelled when [e] is [CancelledError], and failed with [e]
    otherwise. *)
Definition raised (e : exn) : task_state :=
  if is_CancelledError e then Cancelled else Failed e.

(** One turn of the loop of [Client.checker], from the top of the loop
    to the [await]; [o] is what [update_tokens] does in this turn. An
    exception is not caught: it ends the coroutine and its task. *)
Definition checker (o : outcome) (s : state) : state :=
  let s := emit UpdateTokens s in
  match checker_condition o (self s) with
  | Raise e => task_done (raised e) s
  | Ok false => checker_sleep s
  | Ok true =>
      let '(session, w) := new_ClientSession (env s) in
      checker_sleep {| self := set__session session (self s); env := w |}
  end.

(** The event loop gives the checker task its turn: the first one for a
    task just created, or the one after its sleep, when the time has
    come. A task whose cancellation was requested receives
    [CancelledError] where it stands (before its first statement, or at
    the [await]); nothing catches it, so the task ends cancelled. A
    finished task is not run again. *)
Definition step_task (o : outcome) (s : state) : state :=
  match _checker_task (self s) with
  | None => s
  | Some t =>
      match _state t with
      | Created =>
          if _must_cancel t then task_done Cancelled s else checker o s
      | Suspended wake_at =>
          if _must_cancel t then task_done Cancelled s
          else checker o (with_now (Z.max (now (env s)) wake_at) s)
      | Cancelled | Failed _ => s
      end
  end.

(** The checker task runs for as many turns as there are outcomes. *)
Definition run_checker (os : list outcome) (s : state) : state :=
  foldl (λ s o, step_task o s) s os.

(** ** The scope of the client *)

(** A step of a coroutine of the main flow: it returns or raises, in a
    new state, or it waits for ever ([None]). *)
Definition io (A : Type) : Type := state → option (pyresult A * state).

Definition io_bind {A B} (m : io A) (k : A → io B) : io B := λ s,
  match m s with
  | None => None
  | Some (Raise e, s') => Some (Raise e, s')
  | Some (Ok a, s') => k a s'
  end.

Notation "'do' x <- m 'in' k" := (io_bind m (fun x => k))
  (at level 10, x name, m at level 100, k at level 200).

Definition io_ret {A} (a : A) : io A := λ s, Some (Ok a, s).
Definition io_raise {A} (e : exn) : io A := λ s, Some (Raise e, s).

(** [Client.__aenter__]: a new task group is entered and the checker
    task is created in it. The task does not run before the caller
    gives the control back to the event loop. *)
Definition __aenter__ (s : state) : state :=
  let g := {| _errors := []; _parent_cancel_requested := false;
              _aborting := false |} in
  let t := {| _state := Created; _must_cancel := false |} in
  with_self (set__checker_task t (set__task_group g (self s))) s.

Definition is_done (st : task_state) : bool :=
  match st with
  | Created | Suspended _ => false
  | Cancelled | Failed _ => true
  end.

(** [self._checker_task.cancel()]: on a finished task it does nothing
    and returns [False]; on a pending one it requests the cancellation. *)
Definition Task_cancel : io bool := λ s,
  match _checker_task (self s) with
  | None =>
      io_raise (AttributeError "'Client' object has no attribute '_checker_task'") s
  | Some t =>
      if is_done (_state t) then io_ret false s
      else
        let t := {| _state := _state t; _must_cancel := true |} in
        io_ret true (emit TaskCancel (with_self (set__checker_task t (self s)) s))
  end.

(** [TaskGroup._abort]: the group cancels its tasks that are not done. *)
Definition _abort (s : state) : state :=
  match _task_group (self s), _checker_task (self s) with
  | Some g, Some t =>
      let g := {| _errors := _errors g;
                  _parent_cancel_requested := _parent_cancel_requested g;
                  _aborting := true |} in
      let t := if is_done (_state t) then t
               else {| _state := _state t; _must_cancel := true |} in
      with_self (set__checker_task t (set__task_group g (self s))) s
  | _, _ => s
  end.

(** [while self._tasks: await self._on_completed_fut]: the exit of the
    group waits for the checker task. A finished task is waited for no
    longer. A pending task whose cancellation was requested gets its
    turn and ends cancelled. A pending task that nobody cancelled keeps
    looping: the wait is never over. *)
Definition wait_tasks : io unit := λ s,
  match _checker_task (self s) with
  | None => io_ret () s
  | Some t =>
      if is_done (_state t) then io_ret () s
      else if _must_cancel t then io_ret () (task_done Cancelled s)
      else None
  end.

Definition is_nil {A} (l : list A) : bool :=
  match l with [] => true | _ :: _ => false end.

(** [self._task_group.__aexit__(et, exc, tb)], as [asyncio.TaskGroup]
    defines it. [exc] is the exception that left the scope, if any. The
    task that entered the group is cancelled by the group only:
    [uncancel()] returns 0 when the group had requested it. *)
Definition TaskGroup___aexit__ (exc : option exn) : io pyval := λ s,
  match _task_group (self s) with
  | None =>
      io_raise (AttributeError "'Client' object has no attribute '_task_group'") s
  | Some g =>
      let propagate_cancellation_error :=
        match exc with
        | Some CancelledError => negb (_parent_cancel_requested g)
        | _ => false
        end in
      let s := match exc with
               | Some _ => if _aborting g then s else _abort s
               | None => s
               end in
      (do _ <- wait_tasks in λ s,
       let errors := from_option _errors [] (_task_group (self s)) in
       if propagate_cancellation_error && is_nil errors then
         io_raise CancelledError s
       else
         let errors :=
           match exc with
           | Some e => if is_CancelledError e then errors else errors ++ [e]
           | None => errors
           end in
         match errors with
         | [] => io_ret PyNone s
         | _ :: _ =>
             io_raise (BaseExceptionGroup "unhandled errors in a TaskGroup" errors) s
         end) s
  end.

(** [await self._session.close()]. [aiohttp.request] is a function: it
    has no [close]. *)
Definition session_close : io unit := λ s,
  match _session (self s) with
  | ClientSession id => io_ret () (emit (SessionClose id) s)
  | aiohttp_request =>
      io_raise (AttributeError "'function' object has no attribute 'close'") s
  end.

(** [Client.__aexit__(exc_type, exc_val, exc_tb)]; [exc] is the
    exception that left the scope, if any. *)
Definition __aexit__ (exc : option exn) : io pyval :=
  do _ <- Task_cancel in
  do retval <- TaskGroup___aexit__ exc in
  do _ <- session_close in
  io_ret retval.

(** ** A reference implementation of the datetime interface

    Naive datetimes, read as UTC; a float is kept exactly, as a number
    of microseconds, so that the helpers can be run on concrete
    inputs. *)

Definition digit (n : Z) : ascii := ascii_of_nat (48 + Z.to_nat (n `mod` 10)).

(** [n] in decimal, on [width] digits. *)
Fixpoint zero_pad (width : nat) (n : Z) : string :=
  match width with
  | O => EmptyString
  | S w => zero_pad w (n `div` 10) +:+ String (digit n) EmptyString
  end.

Definition iso_date (d : datetime) : string :=
  zero_pad 4 (year d) +:+ "-" +:+ zero_pad 2 (month d) +:+ "-" +:+
  zero_pad 2 (day d).

Definition iso_offset (minutes : Z) : string :=
  (if minutes <? 0 then "-" else "+") +:+
  zero_pad 2 (Z.abs minutes `div` 60) +:+ ":" +:+
  zero_pad 2 (Z.abs minutes `mod` 60).

Definition ref_isoformat (d : datetime) : string :=
  iso_date d +:+ "T" +:+ zero_pad 2 (hour d) +:+ ":" +:+
  zero_pad 2 (minute d) +:+ ":" +:+ zero_pad 2 (second d) +:+
  (if microsecond d =? 0 then "" else "." +:+ zero_pad 6 (microsecond d)) +:+
  from_option iso_offset "" (utcoffset d).

(** Days between 1970-01-01 and the date of [d] (proleptic Gregorian). *)
Definition days_from_civil (d : datetime) : Z :=
  let y := if month d <=? 2 then year d - 1 else year d in
  let era := y `div` 400 in
  let yoe := y - era * 400 in
  let mp := if month d <=? 2 then month d + 9 else month d - 3 in
  let doy := (153 * mp + 2) `div` 5 + day d - 1 in
  let doe := yoe * 365 + yoe `div` 4 - yoe `div` 100 + doy in
  era * 146097 + doe - 719468.

Definition ref_timestamp (d : datetime) : Z :=
  ((days_from_civil d * 86400 + hour d * 3600 + minute d * 60 + second d
    - from_option (λ m, m * 60) 0 (utcoffset d)) * 1000000) + microsecond d.

Definition ref_strftime (d : datetime) (fmt : string) : string :=
  if String.eqb fmt "%Y-%m-%d" then iso_date d else fmt.

Definition reference_datetime_lib : DatetimeLib := {|
  pyfloat := Z;
  isoformat := ref_isoformat;
  timestamp := ref_timestamp;
  float_mul := λ t k, t * k;
  int_of_float := λ t, t `quot` 1000000;
  strftime := ref_strftime
|}.

(** A client as the caller may have prepared it: [c] with the attribute
    [use_session] assigned ([client.use_session = b]). *)
Definition set_use_session (b : bool) (c : Client) : Client :=
  {| version := version c; timeout := timeout c; _session := _session c;
     use_session := Some b; _task_group := _task_group c;
     _checker_task := _checker_task c |}.

(** The state of the checker task and the errors of the group, read
    through the optional attributes. *)
Definition checker_state (s : state) : option task_state :=
  _state <$> _checker_task (self s).

Definition group_errors (s : state) : list exn :=
  from_option _errors [] (_task_group (self s)).

(** A default construction: [Client(app_key, app_secret)] at time 0 of
    an event loop that has done nothing yet. *)
Definition fresh_world : world := {| now := 0; trace := [] |}.

Definition default_client (use_session : bool) : pyresult Client * world :=
  __init__ "key" "secret" "https://127.0.0.1" "tokens.json" 10 false
    use_session None fresh_world.

(** The state in which [default_client] leaves the program; when the
    constructor raises there is no client, and the state holds none of
    its attributes. *)
Definition default_state (use_session : bool) : option state :=
  match default_client use_session with
  | (Ok c, w) => Some {| self := c; env := w |}
  | (Raise _, _) => None
  end.

(** The dictionary [d] without its entries whose value is [None]. *)
Definition without_None (d : pydict) : pydict :=
  filter (λ kv, is_None kv.2 = false) d.

(** A sample [datetime]: 2024-01-02 03:04:05.123456, naive. *)
Definition sample_datetime : datetime :=
  {| year := 2024; month := 1; day := 2; hour := 3; minute := 4;
     second := 5; microsecond := 123456; utcoffset := None |}.

(** The program after a construction that returned. *)
Definition constructed (r : pyresult Client * world) : option state :=
  match r with
  | (Ok c, w) => Some {| self := c; env := w |}
  | (Raise _, _) => None
  end.

(** What holds of a client between [__aenter__] and [__aexit__], while
    the event loop runs the checker: the task and its group exist, no
    cancellation of the task is pending, and the group has recorded an
    error exactly when the task has failed (a task that ended cancelled,
    because [update_tokens] raised [CancelledError], leaves none). *)
Definition in_scope (s : state) : Prop :=
  ∃ (t : Task) (g : TaskGroup),
    _checker_task (self s) = Some t ∧ _task_group (self s) = Some g ∧
    _must_cancel t = false ∧
    match _state t with
    | Created | Suspended _ | Cancelled =>
        _errors g = [] ∧ _parent_cancel_requested g = false ∧
        _aborting g = false
    | Failed e =>
        _errors g = [e] ∧ _parent_cancel_requested g = true ∧
        _aborting g = true
    end.

(** The checker task exists and is not finished. *)
Definition is_pending (s : state) : bool :=
  match checker_state s with
  | Some st => negb (is_done st)
  | None => false
  end.

(** The client that [Client("key", "secret")] builds, with its session
    number 0, in the world that the construction leaves. *)
Definition sample_state : state :=
  {| self := {| version := "Schwabdev 2.5.0"; timeout := 10;
                _session := ClientSession 0; use_session := None;
                _task_group := None; _checker_task := None |};
     env := {| now := 0;
               trace := [NewClientSession 0; NewTokens; NewStream;
                         LogInfo "Client Initialization Complete"] |} |}.

(** The same client after the caller has assigned
    [client.use_session = True]. *)
Definition prepared_state : state :=
  with_self (set_use_session true (self sample_state)) sample_state.

(** * Properties *)

(** ** The parameter helpers *)

Lemma is_None_false (v : pyval) : is_None v = false ↔ v ≠ PyNone.
Proof. destruct v; simpl; split; congruence. Qed.

Lemma str_items_strs (ss : list string) : str_items (PyStr <$> ss) = Ok ss.
Proof.
  induction ss as [|s ss IH]; [done|].
  rewrite fmap_cons. cbn [str_items]. by rewrite IH.
Qed.

(** C9: [_format_list] returns [None] on [None], the comma-separated
    join on a list of strings, and any other argument unchanged; in
    particular it is the identity on strings. *)
Theorem format_list_spec :
  _format_list PyNone = Ok PyNone ∧
  (∀ ss : list string,
     _format_list (PyList (PyStr <$> ss)) = Ok (PyStr (String.concat "," ss))) ∧
  (∀ l : pyval, is_None l = false → is_list l = false → _format_list l = Ok l) ∧
  (∀ s : string, _format_list (PyStr s) = Ok (PyStr s)).
Proof.
  repeat split.
  - intros ss. unfold _format_list, str_join. by rewrite str_items_strs.
  - intros l Hnone Hlist. by destruct l.
Qed.

Lemma format_list_spec_witness :
  is_None (PyInt 7) = false ∧ is_list (PyInt 7) = false ∧
  _format_list (PyInt 7) = Ok (PyInt 7).
Proof.
  split; [reflexivity|]. split; [reflexivity|].
  apply (proj1 (proj2 (proj2 format_list_spec)) (PyInt 7)); reflexivity.
Defined.

Example format_list_example :
  _format_list (PyList [PyStr "a"; PyStr "b"]) = Ok (PyStr "a,b").
Proof. reflexivity. Qed.

(** C10: [_time_convert] returns its input unchanged when it is [None]
    or not a [datetime], whatever the format; and it returns a
    [datetime] unchanged when the format is none of ["8601"], ["epoch"],
    ["epoch_ms"], ["YYYY-MM-DD"]. *)
Theorem time_convert_passthrough `{DatetimeLib} :
  (∀ (dt : pyval) (form : string),
     is_datetime dt = false → _time_convert dt form = dt) ∧
  (∀ (d : datetime) (form : string),
     form ≠ "8601" → form ≠ "epoch" → form ≠ "epoch_ms" →
     form ≠ "YYYY-MM-DD" →
     _time_convert (PyDatetime d) form = PyDatetime d).
Proof.
  split.
  - intros dt form Hdt. by destruct dt.
  - intros d form H1 H2 H3 H4. unfold _time_convert.
    apply String.eqb_neq in H1, H2, H3, H4.
    by rewrite H1, H2, H3, H4.
Qed.

Lemma time_convert_passthrough_witness :
  (is_datetime PyNone = false ∧
   @_time_convert reference_datetime_lib PyNone "epoch" = PyNone) ∧
  (is_datetime (PyStr "2024-01-02") = false ∧
   @_time_convert reference_datetime_lib (PyStr "2024-01-02") "8601"
   = PyStr "2024-01-02") ∧
  ("iso" ≠ "8601" ∧ "iso" ≠ "epoch" ∧ "iso" ≠ "epoch_ms" ∧
   "iso" ≠ "YYYY-MM-DD" ∧
   @_time_convert reference_datetime_lib (PyDatetime sample_datetime) "iso"
   = PyDatetime sample_datetime).
Proof.
  pose proof (@time_convert_passthrough reference_datetime_lib) as [Hin Hform].
  split; [split; [reflexivity | apply Hin; reflexivity]|].
  split; [split; [reflexivity | apply Hin; reflexivity]|].
  repeat (split; [discriminate|]).
  apply Hform; discriminate.
Defined.

Example time_convert_8601 :
  @_time_convert reference_datetime_lib (PyDatetime sample_datetime) "8601"
  = PyStr "2024-01-02T03:04:05.123Z".
Proof. reflexivity. Qed.

Example time_convert_epoch_ms :
  @_time_convert reference_datetime_lib (PyDatetime sample_datetime) "epoch_ms"
  = PyInt 1704164645123.
Proof. reflexivity. Qed.

(** The loop over a list of distinct keys of the dictionary removes,
    among these keys, those bound to [None], and never raises. *)
Ltac elem_solver :=
  simpl in *;
  repeat match goal with
    | H : _ ∉ _ :: _ |- _ => apply not_elem_of_cons in H
    end;
  rewrite ?not_elem_of_cons, ?elem_of_cons; intuition (subst; auto; congruence).

Lemma params_fold (ks : list string) :
  ∀ d : pydict,
    NoDup ks → (∀ k, k ∈ ks → is_Some (d !! k)) →
    foldl params_step (d, None) ks
    = (filter (λ kv, kv.1 ∉ ks ∨ is_None kv.2 = false) d, None).
Proof.
  induction ks as [|k ks IH]; intros d Hnd Hin.
  - simpl. f_equal. apply map_eq; intros j; apply option_eq; intros x.
    rewrite map_lookup_filter_Some.
    split; [intros ?; split; [done | left; apply not_elem_of_nil] | by intros [? _]].
  - apply NoDup_cons in Hnd as [Hk Hnd].
    destruct (Hin k) as [v Hv]; [elem_solver|].
    simpl. rewrite Hv. destruct (is_None v) eqn:Hnone.
    + rewrite IH; [|done|].
      * f_equal. apply map_eq; intros j; apply option_eq; intros x.
        rewrite !map_lookup_filter_Some, lookup_delete_Some. simpl.
        split.
        -- intros [[Hne Hj] [Hnot|Hx]]; (split; [done|]); [left|by right].
           elem_solver.
        -- intros [Hj Hor]. destruct (decide (k = j)) as [->|Hne].
           ++ rewrite Hv in Hj. injection Hj as <-.
              destruct Hor as [Hnot|Hx]; [elem_solver|congruence].
           ++ split; [done|]. destruct Hor as [Hnot|Hx]; [left|by right].
              elem_solver.
      * intros k' Hk'. rewrite lookup_delete_ne; [|elem_solver].
        apply Hin. elem_solver.
    + rewrite IH; [|done|].
      * f_equal. apply map_eq; intros j; apply option_eq; intros x.
        rewrite !map_lookup_filter_Some. simpl.
        split.
        -- intros [Hj [Hnot|Hx]]; (split; [done|]); [|by right].
           destruct (decide (k = j)) as [->|Hne].
           ++ right. rewrite Hv in Hj. by injection Hj as <-.
           ++ left. elem_solver.
        -- intros [Hj [Hnot|Hx]]; (split; [done|]); [left|by right].
           elem_solver.
      * intros k' Hk'. apply Hin. elem_solver.
Qed.

Lemma params_loop_spec (d : pydict) : params_loop d = (without_None d, None).
Proof.
  unfold params_loop, keys_snapshot. rewrite params_fold.
  - f_equal. apply map_eq; intros j; apply option_eq; intros x. unfold without_None.
    rewrite !map_lookup_filter_Some. simpl.
    split; [|intros [Hj Hx]; by auto].
    intros [Hj [Hnot|Hx]]; [|done]. exfalso. apply Hnot.
    apply list_elem_of_fmap. exists (j, x). split; [done|].
    by apply elem_of_map_to_list.
  - apply NoDup_fst_map_to_list.
  - intros k Hk. apply list_elem_of_fmap in Hk as [[k' x] [-> Hkx]].
    apply elem_of_map_to_list in Hkx. by exists x.
Qed.

(** C8: [_params_parser] returns the reference it was given, and the
    dictionary behind that reference (the one of the caller) now holds
    exactly the entries of the input whose value is not [None], with
    their values unchanged; every other object of the heap is as it
    was. *)
Theorem params_parser_spec (h : heap) (params : nat) (d : pydict) :
  h !! params = Some d →
  ∃ d' : pydict,
    _params_parser params h = Some (Ok params, <[params := d']> h) ∧
    (∀ (k : string) (v : pyval),
       d' !! k = Some v ↔ d !! k = Some v ∧ v ≠ PyNone).
Proof.
  intros Hd. exists (without_None d). split.
  - unfold _params_parser. rewrite Hd. simpl. by rewrite params_loop_spec.
  - intros k v. unfold without_None.
    rewrite map_lookup_filter_Some. simpl. by rewrite is_None_false.
Qed.

Lemma params_parser_spec_witness :
  ({[ 0%nat := ({[ "a" := PyInt 1; "b" := PyNone ]} : pydict) ]} : heap) !! 0%nat
  = Some ({[ "a" := PyInt 1; "b" := PyNone ]} : pydict) ∧
  ∃ d' : pydict,
    _params_parser 0 {[ 0%nat := {[ "a" := PyInt 1; "b" := PyNone ]} ]}
    = Some (Ok 0%nat, <[0%nat := d']> {[ 0%nat := {[ "a" := PyInt 1; "b" := PyNone ]} ]}) ∧
    (∀ (k : string) (v : pyval),
       d' !! k = Some v ↔
       ({[ "a" := PyInt 1; "b" := PyNone ]} : pydict) !! k = Some v ∧ v ≠ PyNone).
Proof.
  split; [reflexivity|].
  apply (params_parser_spec {[ 0%nat := {[ "a" := PyInt 1; "b" := PyNone ]} ]} 0
           {[ "a" := PyInt 1; "b" := PyNone ]}).
  reflexivity.
Defined.

(** The example of the docstring: [{'a': 1, 'b': None}] becomes
    [{'a': 1}], in the dictionary of the caller. *)
Example params_parser_docstring :
  _params_parser 0 {[ 0%nat := {[ "a" := PyInt 1; "b" := PyNone ]} ]}
  = Some (Ok 0%nat, {[ 0%nat := {[ "a" := PyInt 1 ]} ]}).
Proof. by vm_compute. Qed.

(** ** Construction *)

(** C4: when the timeout is not positive, the constructor raises at
    once, and the world it returns is the one it was given: no session
    was opened and neither the credential store nor the stream object
    was built. *)
Theorem init_rejects_nonpositive_timeout
    (app_key app_secret callback_url tokens_file : string) (timeout : Z)
    (capture_callback use_session : bool) (call_on_notify : option nat)
    (w : world) :
  timeout ≤ 0 →
  ∃ msg : string,
    __init__ app_key app_secret callback_url tokens_file timeout
      capture_callback use_session call_on_notify w
    = (Raise (Exception msg), w).
Proof.
  intros Hle. unfold __init__.
  destruct (Z.leb_spec timeout 0) as [_|Hlt]; [by eexists | lia].
Qed.

Lemma init_rejects_nonpositive_timeout_witness :
  0 ≤ 0 ∧
  ∃ msg : string,
    __init__ "key" "secret" "https://127.0.0.1" "tokens.json" 0 false true
      None fresh_world
    = (Raise (Exception msg), fresh_world).
Proof.
  split; [lia|].
  apply (init_rejects_nonpositive_timeout "key" "secret" "https://127.0.0.1"
           "tokens.json" 0 false true None fresh_world).
  lia.
Defined.

(** With a positive timeout the constructor does build the client: it
    opens one session when [use_session] is true, and it leaves the
    attribute [use_session] unassigned. *)
Lemma init_accepts_positive_timeout
    (app_key app_secret callback_url tokens_file : string) (timeout : Z)
    (capture_callback shared : bool) (call_on_notify : option nat)
    (w : world) :
  0 < timeout →
  ∃ (c : Client) (w' : world),
    __init__ app_key app_secret callback_url tokens_file timeout
      capture_callback shared call_on_notify w = (Ok c, w') ∧
    use_session c = None ∧
    _checker_task c = None ∧
    _session c = (if shared
                  then ClientSession (sessions_opened (trace w))
                  else aiohttp_request) ∧
    now w' = now w ∧
    trace w' = trace w
               ++ (if shared
                   then [NewClientSession (sessions_opened (trace w))]
                   else [])
               ++ [NewTokens; NewStream;
                   LogInfo "Client Initialization Complete"].
Proof.
  intros Hpos. unfold __init__.
  destruct (Z.leb_spec timeout 0) as [Hle|_]; [lia|].
  destruct shared; simpl; eexists _, _; repeat split; simpl;
    by rewrite <- ?app_assoc.
Qed.

(** ** Traces *)

Lemma count_events_app (p : event → bool) (l1 l2 : list event) :
  count_events p (l1 ++ l2) = (count_events p l1 + count_events p l2)%nat.
Proof. unfold count_events. by rewrite List.filter_app, length_app. Qed.

Lemma closes_app (l1 l2 : list event) : closes (l1 ++ l2) = closes l1 ++ closes l2.
Proof. apply List.filter_app. Qed.

(** ** The checker task inside a scope *)

Ltac open_state s :=
  destruct s as [[? ? ? ? ? ?] [? ?]]; simpl in *.

Ltac open_scope s H :=
  destruct H as (t & g & Ht & Hg & Hmc & Hst);
  open_state s; destruct t as [st mc]; destruct g as [errs pcr ab];
  simpl in *; subst.

Lemma aenter_in_scope (s : state) : in_scope (__aenter__ s).
Proof. unfold in_scope, __aenter__. simpl. by eexists _, _. Qed.

Lemma step_task_in_scope (o : outcome) (s : state) :
  in_scope s → in_scope (step_task o s).
Proof.
  intros H. open_scope s H. unfold in_scope, step_task, checker, raised. simpl.
  destruct st as [|w| |e]; try done; destruct_and?; subst; simpl.
  all: try (by eexists _, _).
  all: destruct o as [[|]|e]; simpl; try (by eexists _, _).
  all: try (destruct e; simpl; by eexists _, _).
  all: unfold get_use_session; simpl.
  all: match goal with u : option bool |- _ => destruct u as [[|]|] end.
  all: simpl; by eexists _, _.
Qed.

Lemma run_checker_in_scope (os : list outcome) :
  ∀ s, in_scope s → in_scope (run_checker os s).
Proof.
  induction os as [|o os IH]; intros s Hs; [done|].
  simpl. apply IH. by apply step_task_in_scope.
Qed.

Lemma run_checker_app (os1 os2 : list outcome) (s : state) :
  run_checker (os1 ++ os2) s = run_checker os2 (run_checker os1 s).
Proof. apply foldl_app. Qed.

Ltac step_cases :=
  unfold step_task, checker, checker_condition, get_use_session, raised,
    checker_state, is_pending, group_errors in *;
  simpl in *;
  repeat match goal with
    | st : task_state |- _ => destruct st; simpl in *; try done
    | o : outcome |- _ => destruct o as [[|]|?]; simpl in *; try done
    | u : option bool |- _ => destruct u as [[|]|]; simpl in *; try done
    | |- context [is_CancelledError ?e] =>
        is_var e; destruct e; simpl in *; try done
    end.

Ltac count_simpl :=
  unfold sessions_opened, refresh_calls; rewrite ?count_events_app;
  unfold count_events; simpl.

(** A task that is finished is not run again. *)
Lemma step_task_finished (o : outcome) (s : state) :
  is_pending s = false → step_task o s = s.
Proof.
  intros H. open_state s. unfold step_task, is_pending, checker_state in *.
  simpl in *.
  match goal with t : option Task |- _ => destruct t as [[st mc]|] end;
    [|done].
  simpl in *. by destruct st.
Qed.

(** No turn of the checker closes a session. *)
Lemma step_task_closes (o : outcome) (s : state) :
  closes (trace (env (step_task o s))) = closes (trace (env s)).
Proof.
  open_state s.
  match goal with t : option Task |- _ => destruct t as [[st mc]|] end;
    [|done].
  destruct mc; step_cases;
    rewrite ?closes_app; simpl; by rewrite ?app_nil_r.
Qed.

(** No turn of the checker assigns [self.use_session]. *)
Lemma step_task_use_session (o : outcome) (s : state) :
  use_session (self (step_task o s)) = use_session (self s).
Proof.
  open_state s.
  match goal with t : option Task |- _ => destruct t as [[st mc]|] end;
    [|done].
  match goal with g : option TaskGroup |- _ => destruct g end;
    destruct mc; by step_cases.
Qed.

(** While [self.use_session] is unassigned, no turn of the checker
    replaces the session or constructs one. *)
Lemma step_task_without_attribute (o : outcome) (s : state) :
  use_session (self s) = None →
  _session (self (step_task o s)) = _session (self s) ∧
  sessions_opened (trace (env (step_task o s))) = sessions_opened (trace (env s)).
Proof.
  intros Hu. open_state s. subst.
  match goal with t : option Task |- _ => destruct t as [[st mc]|] end;
    [|done].
  match goal with g : option TaskGroup |- _ => destruct g end;
    destruct mc; step_cases;
    count_simpl; split; (done || lia).
Qed.

(** Each turn of a pending task makes one call to [update_tokens]; a
    finished task makes none. *)
Lemma step_task_refresh_calls (o : outcome) (s : state) :
  in_scope s →
  refresh_calls (trace (env (step_task o s)))
  = (refresh_calls (trace (env s)) + (if is_pending s then 1 else 0))%nat.
Proof.
  intros H. open_scope s H. step_cases;
    count_simpl; lia.
Qed.

(** An exception of [update_tokens], other than [CancelledError], ends
    the task with that exception, and the group records it. *)
Lemma step_task_raises (e : exn) (s : state) :
  in_scope s → is_pending s = true → is_CancelledError e = false →
  checker_state (step_task (Raises e) s) = Some (Failed e) ∧
  group_errors (step_task (Raises e) s) = [e].
Proof.
  intros H Hp He. open_scope s H.
  unfold step_task, checker, checker_condition, raised, checker_state,
    is_pending, group_errors in *.
  simpl in *. destruct st; try done; simpl; rewrite He; simpl;
    destruct_and?; by subst.
Qed.

(** When [update_tokens] raises [CancelledError], the task ends
    cancelled and the group records nothing. *)
Lemma step_task_raises_cancelled (s : state) :
  in_scope s → is_pending s = true →
  checker_state (step_task (Raises CancelledError) s) = Some Cancelled ∧
  group_errors (step_task (Raises CancelledError) s) = [].
Proof.
  intros H Hp. open_scope s H.
  unfold step_task, checker, checker_condition, raised, checker_state,
    is_pending, group_errors in *.
  simpl in *. destruct st; try done; simpl; destruct_and?; by subst.
Qed.

(** Whatever [update_tokens] raises, the task is finished after the
    turn. *)
Lemma step_task_raises_finished (e : exn) (s : state) :
  in_scope s → is_pending (step_task (Raises e) s) = false.
Proof.
  intros H. open_scope s H. by step_cases.
Qed.

(** A turn in which [update_tokens] returns [False]: the call, then the
    sleep, and nothing else. *)
Lemma step_task_false (s : state) :
  in_scope s → is_pending s = true →
  is_pending (step_task (Returns false) s) = true ∧
  _session (self (step_task (Returns false) s)) = _session (self s) ∧
  trace (env (step_task (Returns false) s))
  = trace (env s) ++ [UpdateTokens; Sleep 30].
Proof.
  intros H Hp. open_scope s H. step_cases; by rewrite <- app_assoc.
Qed.

(** A turn in which [update_tokens] returns [True] while
    [self.use_session] is unassigned: reading the attribute raises, and
    the task ends there. *)
Lemma step_task_true_without_attribute (s : state) :
  in_scope s → is_pending s = true → use_session (self s) = None →
  checker_state (step_task (Returns true) s)
  = Some (Failed (AttributeError "'Client' object has no attribute 'use_session'")) ∧
  trace (env (step_task (Returns true) s)) = trace (env s) ++ [UpdateTokens].
Proof.
  intros H Hp Hu. open_scope s H. by step_cases.
Qed.

(** A turn in which [update_tokens] returns [True] on a client whose
    attribute [use_session] was assigned [True]: the call, a new
    session that becomes the current one, then the sleep. *)
Lemma step_task_true_with_attribute (s : state) :
  in_scope s → is_pending s = true → use_session (self s) = Some true →
  is_pending (step_task (Returns true) s) = true ∧
  _session (self (step_task (Returns true) s))
  = ClientSession (sessions_opened (trace (env s))) ∧
  trace (env (step_task (Returns true) s))
  = trace (env s)
    ++ [UpdateTokens; NewClientSession (sessions_opened (trace (env s)));
        Sleep 30].
Proof.
  intros H Hp Hu. open_scope s H. step_cases;
    count_simpl; rewrite ?Nat.add_0_r; rewrite <- ?app_assoc; done.
Qed.

(** ** Leaving the scope *)

Ltac exit_cases :=
  unfold __aexit__, io_bind, Task_cancel, TaskGroup___aexit__, wait_tasks,
    session_close, _abort, io_ret, io_raise, task_done, checker_state,
    is_pending, group_errors in *;
  simpl in *.

(** Leaving the scope without an exception while the checker task is
    pending: the task is cancelled where it stands, the group reports
    nothing, and the current session is closed. *)
Lemma aexit_pending (s : state) :
  in_scope s → is_pending s = true →
  ∃ (r : pyresult pyval) (s' : state),
    __aexit__ None s = Some (r, s') ∧
    checker_state s' = Some Cancelled ∧
    group_errors s' = [] ∧
    _session (self s') = _session (self s) ∧
    now (env s') = now (env s) ∧
    match _session (self s) with
    | ClientSession id =>
        r = Ok PyNone ∧
        trace (env s') = trace (env s) ++ [TaskCancel; SessionClose id]
    | aiohttp_request =>
        r = Raise (AttributeError "'function' object has no attribute 'close'") ∧
        trace (env s') = trace (env s) ++ [TaskCancel]
    end.
Proof.
  intros H Hp. open_scope s H. exit_cases.
  destruct st; try done; destruct_and?; subst; simpl;
    match goal with x : transport |- _ => destruct x end; simpl;
    eexists _, _; (split; [reflexivity|]); simpl;
    rewrite <- ?app_assoc; done.
Qed.

(** Leaving the scope with an exception: the exit of the task group
    raises, so the statements after it do not run and no session is
    closed. *)
Lemma aexit_with_exception (e : exn) (s : state) :
  in_scope s →
  ∃ (err : exn) (s' : state),
    __aexit__ (Some e) s = Some (Raise err, s') ∧
    is_pending s' = false ∧
    closes (trace (env s')) = closes (trace (env s)).
Proof.
  intros H. open_scope s H. exit_cases.
  destruct st; try done; destruct_and?; subst; simpl;
    destruct e; simpl; eexists _, _; (split; [reflexivity|]); simpl;
    rewrite ?closes_app; simpl; by rewrite ?app_nil_r.
Qed.

(** Leaving the scope after the checker task has failed, with or
    without an exception of the scope itself: the exit of the task
    group raises the failure of the task inside an exception group, and
    nothing more happens. *)
Lemma aexit_after_failure (exc : option exn) (e0 : exn) (s : state) :
  in_scope s → checker_state s = Some (Failed e0) →
  ∃ more : list exn,
    __aexit__ exc s
    = Some (Raise (BaseExceptionGroup "unhandled errors in a TaskGroup"
                     (e0 :: more)), s).
Proof.
  intros H Hf. open_scope s H. exit_cases.
  destruct st; try done; destruct_and?; simplify_eq; simpl.
  destruct exc as [[]|]; simpl; by eexists.
Qed.

(** The two first statements of the exit close nothing, call nothing
    and leave [self._session] alone. *)
Lemma Task_cancel_frame (s s' : state) (r : pyresult bool) :
  Task_cancel s = Some (r, s') →
  closes (trace (env s')) = closes (trace (env s)) ∧
  _session (self s') = _session (self s) ∧
  refresh_calls (trace (env s')) = refresh_calls (trace (env s)) ∧
  sessions_opened (trace (env s')) = sessions_opened (trace (env s)) ∧
  now (env s') = now (env s).
Proof.
  open_state s. unfold Task_cancel, io_ret, io_raise. simpl.
  repeat case_match; intros; simplify_eq; simpl;
    rewrite ?closes_app; count_simpl; rewrite ?app_nil_r;
    repeat split; (done || lia).
Qed.

Lemma abort_frame (s : state) :
  env (_abort s) = env s ∧ _session (self (_abort s)) = _session (self s).
Proof. open_state s. unfold _abort. simpl. by repeat case_match. Qed.

Lemma wait_tasks_frame (s s' : state) (r : pyresult unit) :
  wait_tasks s = Some (r, s') →
  env s' = env s ∧ _session (self s') = _session (self s).
Proof.
  open_state s. unfold wait_tasks, io_ret, task_done. simpl.
  repeat case_match; intros; by simplify_eq.
Qed.

Lemma TaskGroup_aexit_frame (exc : option exn) (s s' : state) (r : pyresult pyval) :
  TaskGroup___aexit__ exc s = Some (r, s') →
  env s' = env s ∧ _session (self s') = _session (self s).
Proof.
  unfold TaskGroup___aexit__.
  destruct (_task_group (self s)) as [g|];
    [|unfold io_raise; intros; by simplify_eq].
  set (s1 := match exc with
             | Some _ => if _aborting g then s else _abort s
             | None => s
             end).
  assert (env s1 = env s ∧ _session (self s1) = _session (self s)) as [He Hs].
  { subst s1. destruct exc; [|done]. destruct (_aborting g); [done|].
    apply abort_frame. }
  unfold io_bind. destruct (wait_tasks s1) as [[[u|e] s2]|] eqn:Hw; [| |done].
  - apply wait_tasks_frame in Hw as [He2 Hs2].
    unfold io_raise, io_ret.
    repeat case_match; intros; simplify_eq; by rewrite He2, Hs2.
  - apply wait_tasks_frame in Hw as [He2 Hs2].
    intros; simplify_eq. by rewrite He2, Hs2.
Qed.

(** Whatever the state and the exception of the scope, the exit closes
    nothing or closes the session that is current when it is called. *)
Lemma aexit_closes (exc : option exn) (s s' : state) (r : pyresult pyval) :
  __aexit__ exc s = Some (r, s') →
  closes (trace (env s')) = closes (trace (env s)) ∨
  ∃ id : nat,
    _session (self s) = ClientSession id ∧
    closes (trace (env s')) = closes (trace (env s)) ++ [SessionClose id].
Proof.
  unfold __aexit__, io_bind.
  destruct (Task_cancel s) as [[[b|e] s1]|] eqn:H1; [| |done].
  - apply Task_cancel_frame in H1 as (Hc1 & Hs1 & _).
    destruct (TaskGroup___aexit__ exc s1) as [[[v|e] s2]|] eqn:H2; [| |done].
    + apply TaskGroup_aexit_frame in H2 as [He2 Hs2].
      unfold session_close, io_ret, io_raise.
      destruct (_session (self s2)) as [id|] eqn:Hid; intros; simplify_eq.
      * right. exists id. split; [congruence|].
        simpl. by rewrite closes_app, He2, Hc1.
      * left. by rewrite He2.
    + apply TaskGroup_aexit_frame in H2 as [He2 Hs2].
      intros; simplify_eq. left. by rewrite He2.
  - apply Task_cancel_frame in H1 as (Hc1 & Hs1 & _).
    intros; simplify_eq. by left.
Qed.

(** The exit makes no call to [update_tokens], constructs no session
    and does not replace the current one. *)
Lemma aexit_frame (exc : option exn) (s s' : state) (r : pyresult pyval) :
  __aexit__ exc s = Some (r, s') →
  refresh_calls (trace (env s')) = refresh_calls (trace (env s)) ∧
  sessions_opened (trace (env s')) = sessions_opened (trace (env s)) ∧
  _session (self s') = _session (self s) ∧
  now (env s') = now (env s).
Proof.
  unfold __aexit__, io_bind.
  destruct (Task_cancel s) as [[[b|e] s1]|] eqn:H1; [| |done];
    apply Task_cancel_frame in H1 as (_ & Hs1 & Hr1 & Ho1 & Hn1);
    [|intros; simplify_eq; done].
  destruct (TaskGroup___aexit__ exc s1) as [[[v|e] s2]|] eqn:H2; [| |done];
    apply TaskGroup_aexit_frame in H2 as [He2 Hs2];
    [|intros; simplify_eq; rewrite He2; repeat split; congruence].
  unfold session_close, io_ret, io_raise.
  destruct (_session (self s2)) as [id|] eqn:Hid; intros; simplify_eq; simpl;
    rewrite He2, <- Hr1, <- Ho1; count_simpl;
    repeat split; (congruence || lia).
Qed.

(** Leaving the scope without an exception after the task has ended
    cancelled of itself: the group has nothing to report and the exit
    goes on to the close. *)
Lemma aexit_after_cancelled (s : state) :
  in_scope s → checker_state s = Some Cancelled →
  ∃ (r : pyresult pyval) (s' : state),
    __aexit__ None s = Some (r, s') ∧
    match _session (self s) with
    | ClientSession id =>
        r = Ok PyNone ∧ trace (env s') = trace (env s) ++ [SessionClose id]
    | aiohttp_request =>
        r = Raise (AttributeError "'function' object has no attribute 'close'") ∧
        trace (env s') = trace (env s)
    end.
Proof.
  intros H Hc. open_scope s H. exit_cases.
  destruct st; try done; destruct_and?; subst; simpl;
    match goal with x : transport |- _ => destruct x end; simpl;
    eexists _, _; (split; [reflexivity|]); by simpl.
Qed.

(** Inside a scope, a task that is not pending has failed or has ended
    cancelled. *)
Lemma finished_in_scope (s : state) :
  in_scope s → is_pending s = false →
  (∃ e0 : exn, checker_state s = Some (Failed e0)) ∨
  checker_state s = Some Cancelled.
Proof.
  intros H Hp. open_scope s H. unfold is_pending, checker_state in *.
  simpl in *. destruct st; try done; eauto.
Qed.

(** Inside a scope the exit always comes back: the wait for the
    cancelled task is over after one turn of the event loop. *)
Lemma aexit_returns (exc : option exn) (s : state) :
  in_scope s → ∃ (r : pyresult pyval) (s' : state), __aexit__ exc s = Some (r, s').
Proof.
  intros H. destruct exc as [e|].
  { destruct (aexit_with_exception e s H) as (err & s' & Hx & _). eauto. }
  destruct (is_pending s) eqn:Hp.
  - destruct (aexit_pending s H Hp) as (r & s' & Hx & _). eauto.
  - destruct (finished_in_scope s H Hp) as [[e0 He0]|Hc].
    + destruct (aexit_after_failure None e0 s H He0) as (more & Hx). eauto.
    + destruct (aexit_after_cancelled s H Hc) as (r & s' & Hx & _). eauto.
Qed.

(** ** Runs of the checker *)

Lemma run_checker_cons (o : outcome) (os : list outcome) (s : state) :
  run_checker (o :: os) s = run_checker os (step_task o s).
Proof. done. Qed.

Lemma run_checker_finished (os : list outcome) (s : state) :
  is_pending s = false → run_checker os s = s.
Proof.
  intros Hp. induction os as [|o os IH]; [done|].
  simpl. by rewrite step_task_finished.
Qed.

Lemma run_checker_use_session (os : list outcome) :
  ∀ s, use_session (self (run_checker os s)) = use_session (self s).
Proof.
  induction os as [|o os IH]; intros s; [done|].
  simpl. by rewrite IH, step_task_use_session.
Qed.

Lemma run_checker_closes (os : list outcome) :
  ∀ s, closes (trace (env (run_checker os s))) = closes (trace (env s)).
Proof.
  induction os as [|o os IH]; intros s; [done|].
  by rewrite run_checker_cons, IH, step_task_closes.
Qed.

(** While [self.use_session] is unassigned, the checker never replaces
    the session, whatever [update_tokens] does. *)
Lemma run_checker_without_attribute (os : list outcome) :
  ∀ s, use_session (self s) = None →
       _session (self (run_checker os s)) = _session (self s) ∧
       sessions_opened (trace (env (run_checker os s)))
       = sessions_opened (trace (env s)).
Proof.
  induction os as [|o os IH]; intros s Hu; [done|].
  simpl. destruct (step_task_without_attribute o s Hu) as [Hs Ho].
  destruct (IH (step_task o s)) as [Hs' Ho'].
  - by rewrite step_task_use_session.
  - split; congruence.
Qed.

(** Turns in which [update_tokens] returns [False] keep the task
    pending; each makes one call. *)
Lemma run_checker_false (n : nat) :
  ∀ s, in_scope s → is_pending s = true →
       let s' := run_checker (replicate n (Returns false)) s in
       is_pending s' = true ∧
       refresh_calls (trace (env s')) = (refresh_calls (trace (env s)) + n)%nat.
Proof.
  induction n as [|n IH]; intros s H Hp; simpl; [split; [done|lia]|].
  destruct (step_task_false s H Hp) as (Hp' & _ & _).
  destruct (IH (step_task (Returns false) s)) as [Hp'' Hr];
    [by apply step_task_in_scope | done |].
  split; [done|]. simpl in Hr. rewrite Hr, step_task_refresh_calls by done.
  rewrite Hp. lia.
Qed.

(** What the code does once the attribute is assigned: on a client
    whose [use_session] is [True], the checker constructs one session
    for each [True] that [update_tokens] returns and none for a
    [False]. *)
Lemma run_checker_with_attribute (bs : list bool) :
  ∀ s, in_scope s → is_pending s = true → use_session (self s) = Some true →
       let s' := run_checker (Returns <$> bs) s in
       is_pending s' = true ∧
       sessions_opened (trace (env s'))
       = (sessions_opened (trace (env s)) + length (List.filter id bs))%nat.
Proof.
  induction bs as [|b bs IH]; intros s H Hp Hu; [simpl; split; [done|lia]|].
  rewrite fmap_cons. cbv zeta. rewrite run_checker_cons.
  destruct (IH (step_task (Returns b) s)) as [Hp' Ho].
  - by apply step_task_in_scope.
  - destruct b; [by apply step_task_true_with_attribute
                | by apply step_task_false].
  - by rewrite step_task_use_session.
  - split; [done|]. rewrite Ho. destruct b.
    + destruct (step_task_true_with_attribute s H Hp Hu) as (_ & _ & ->).
      count_simpl. lia.
    + destruct (step_task_false s H Hp) as (_ & _ & ->).
      count_simpl. lia.
Qed.

Lemma default_state_sample : default_state true = Some sample_state.
Proof. reflexivity. Qed.

(** ** The claims about the supervisor loop and the scope *)

(** C1 (the code fails it): on a client constructed with
    [use_session=True], as soon as [update_tokens] returns [True] the
    checker reads [self.use_session], which the constructor never
    assigned: the task ends with [AttributeError], the session is not
    replaced, no session is constructed, and the outcomes that follow
    are never asked for. Here the first [True] comes after [n] turns
    that returned [False]. *)
Theorem checker_first_true_raises
    (app_key app_secret callback_url tokens_file : string) (p : positive)
    (capture_callback : bool) (call_on_notify : option nat) (w : world)
    (n : nat) (rest : list outcome) :
  ∃ s0 : state,
    constructed (__init__ app_key app_secret callback_url tokens_file
                   (Z.pos p) capture_callback true call_on_notify w)
    = Some s0 ∧
    _session (self s0) = ClientSession (sessions_opened (trace w)) ∧
    let s := run_checker (replicate n (Returns false) ++ Returns true :: rest)
               (__aenter__ s0) in
    checker_state s
    = Some (Failed (AttributeError "'Client' object has no attribute 'use_session'")) ∧
    _session (self s) = _session (self s0) ∧
    sessions_opened (trace (env s)) = sessions_opened (trace (env s0)) ∧
    refresh_calls (trace (env s))
    = (refresh_calls (trace (env s0)) + n + 1)%nat.
Proof.
  destruct (init_accepts_positive_timeout app_key app_secret callback_url
              tokens_file (Z.pos p) capture_callback true call_on_notify w)
    as (c & w' & Hinit & Hu & _ & Hs & _); [lia|].
  exists {| self := c; env := w' |}. rewrite Hinit. simpl.
  split; [done|]. split; [done|].
  set (s0 := {| self := c; env := w' |}).
  assert (in_scope (__aenter__ s0)) as Hin by apply aenter_in_scope.
  destruct (run_checker_false n (__aenter__ s0) Hin eq_refl) as [Hp Hr].
  set (s1 := run_checker (replicate n (Returns false)) (__aenter__ s0)) in *.
  assert (in_scope s1) as Hin1 by by apply run_checker_in_scope.
  assert (use_session (self s1) = None) as Hu1.
  { subst s1. by rewrite run_checker_use_session. }
  destruct (step_task_true_without_attribute s1 Hin1 Hp Hu1) as [Hf Ht].
  rewrite run_checker_app, run_checker_cons. fold s1.
  rewrite run_checker_finished.
  2:{ unfold is_pending. by rewrite Hf. }
  split; [done|].
  destruct (run_checker_without_attribute
              (replicate n (Returns false) ++ [Returns true]) (__aenter__ s0))
    as [Hs' Ho']; [done|].
  rewrite run_checker_app in Hs', Ho'. simpl in Hs', Ho'. fold s1 in Hs', Ho'.
  split; [done|]. split; [done|].
  rewrite Ht. unfold refresh_calls in *. rewrite count_events_app, Hr.
  unfold count_events at 2. simpl. lia.
Qed.

(** The smallest such run: [Client("key", "secret")], scope entered,
    [update_tokens] returns [True] in the first turn. *)
Example checker_first_true_sample :
  let s := run_checker [Returns true] (__aenter__ sample_state) in
  checker_state s
  = Some (Failed (AttributeError "'Client' object has no attribute 'use_session'")) ∧
  _session (self s) = ClientSession 0 ∧
  sessions_opened (trace (env s)) = 1%nat.
Proof. by vm_compute. Qed.

(** C2, as the specification states it, fails: [update_tokens] raises
    in the first turn of the checker; a second turn is offered, yet the
    task is finished, a single call was made, and the exit of the scope
    raises the failure to the caller. *)
Lemma checker_failure_counterexample :
  let s := run_checker [Raises (Exception "auth service down"); Returns false]
             (__aenter__ sample_state) in
  is_pending s = false ∧
  refresh_calls (trace (env s)) = 1%nat ∧
  ∃ s' : state,
    __aexit__ None s
    = Some (Raise (BaseExceptionGroup "unhandled errors in a TaskGroup"
                     [Exception "auth service down"]), s').
Proof. vm_compute. split; [done|]. split; [done|]. by eexists. Qed.

Lemma is_CancelledError_false (e : exn) :
  is_CancelledError e = false ↔ e ≠ CancelledError.
Proof. destruct e; simpl; split; congruence. Qed.

(** C2, amended: when [update_tokens] raises in a turn of the checker,
    the exception leaves [checker]: the task is finished in that turn
    and no later turn calls [update_tokens] again. When the exception
    is not [CancelledError] the task has failed with it and, whatever
    the way the scope is left, its exit raises an exception group that
    holds the failure; when it is [CancelledError] the task has ended
    cancelled and the group holds no error. *)
Theorem checker_failure_ends_loop
    (s0 : state) (before after : list outcome) (e : exn) :
  let s := run_checker before (__aenter__ s0) in
  is_pending s = true →
  let s' := run_checker (Raises e :: after) s in
  is_pending s' = false ∧
  refresh_calls (trace (env s')) = S (refresh_calls (trace (env s))) ∧
  (e ≠ CancelledError →
   checker_state s' = Some (Failed e) ∧
   ∀ exc : option exn,
     ∃ (more : list exn) (s'' : state),
       __aexit__ exc s'
       = Some (Raise (BaseExceptionGroup "unhandled errors in a TaskGroup"
                        (e :: more)), s'')) ∧
  (e = CancelledError →
   checker_state s' = Some Cancelled ∧ group_errors s' = []).
Proof.
  intros s Hp s'.
  assert (in_scope s) as Hin.
  { apply run_checker_in_scope, aenter_in_scope. }
  pose proof (step_task_raises_finished e s Hin) as Hfin.
  assert (s' = step_task (Raises e) s) as ->.
  { subst s'. rewrite run_checker_cons. by apply run_checker_finished. }
  split; [done|]. split; [|split].
  - rewrite step_task_refresh_calls by done. rewrite Hp. lia.
  - intros He. apply is_CancelledError_false in He.
    destruct (step_task_raises e s Hin Hp He) as [Hf _].
    split; [done|]. intros exc.
    destruct (aexit_after_failure exc e (step_task (Raises e) s))
      as (more & Hx); [by apply step_task_in_scope | done |].
    eauto.
  - intros ->. by apply step_task_raises_cancelled.
Qed.

Lemma checker_failure_ends_loop_witness :
  is_pending (run_checker [Returns false] (__aenter__ sample_state)) = true ∧
  Exception "auth service down" ≠ CancelledError ∧
  let s' := run_checker [Returns false; Raises (Exception "auth service down");
                         Returns false] (__aenter__ sample_state) in
  checker_state s' = Some (Failed (Exception "auth service down")) ∧
  refresh_calls (trace (env s')) = 2%nat.
Proof.
  split; [reflexivity|]. split; [discriminate|].
  pose proof (checker_failure_ends_loop sample_state [Returns false]
                [Returns false] (Exception "auth service down") eq_refl)
    as (_ & Hr & Hf & _).
  split; [apply Hf; discriminate | exact Hr].
Defined.

(** When [update_tokens] raises [CancelledError], the scope is left as
    if nothing had failed: the exit returns [None] and closes the
    session. *)
Example checker_cancelled_sample :
  let s := run_checker [Raises CancelledError; Returns false]
             (__aenter__ sample_state) in
  checker_state s = Some Cancelled ∧
  refresh_calls (trace (env s)) = 1%nat ∧
  ∃ s' : state,
    __aexit__ None s = Some (Ok PyNone, s') ∧
    closes (trace (env s')) = [SessionClose 0].
Proof. vm_compute. split; [done|]. split; [done|]. by eexists. Qed.

(** C3 (the code fails it): when an exception leaves the scope, or when
    the checker task has failed, the exit cancels and awaits the task,
    but the exit of the task group raises and [self._session.close()]
    is never reached: no session is closed. The first part is a scope
    left with the exception [e]; the second one is a scope left in any
    way once the checker task has failed (with an exception of
    [update_tokens] other than [CancelledError], or with the
    [AttributeError] of [self.use_session]). *)
Theorem aexit_error_skips_close
    (s0 : state) (os : list outcome) (e e0 : exn) (exc : option exn) :
  let s := run_checker os (__aenter__ s0) in
  (∃ (err : exn) (s' : state),
     __aexit__ (Some e) s = Some (Raise err, s') ∧
     is_pending s' = false ∧
     closes (trace (env s')) = closes (trace (env s))) ∧
  (checker_state s = Some (Failed e0) →
   ∃ (err : exn) (s' : state),
     __aexit__ exc s = Some (Raise err, s') ∧
     is_pending s' = false ∧
     closes (trace (env s')) = closes (trace (env s))).
Proof.
  intros s.
  assert (in_scope s) as Hin.
  { apply run_checker_in_scope, aenter_in_scope. }
  split.
  - destruct (aexit_with_exception e s Hin) as (err & s' & Hx & Hp & Hc).
    by exists err, s'.
  - intros He0.
    destruct (aexit_after_failure exc e0 s Hin He0) as (more & Hx).
    eexists _, _. split; [exact Hx|]. split; [|done].
    unfold is_pending. by rewrite He0.
Qed.

Lemma aexit_error_skips_close_witness :
  let s := run_checker [Returns false; Raises (Exception "auth service down")]
             (__aenter__ sample_state) in
  checker_state s = Some (Failed (Exception "auth service down")) ∧
  ∃ (err : exn) (s' : state),
    __aexit__ None s = Some (Raise err, s') ∧
    is_pending s' = false ∧
    closes (trace (env s')) = closes (trace (env s)).
Proof.
  split; [reflexivity|].
  apply (proj2 (aexit_error_skips_close sample_state
                  [Returns false; Raises (Exception "auth service down")]
                  CancelledError (Exception "auth service down") None)).
  reflexivity.
Defined.

(** A run of that kind: the checker sleeps, the body of the scope
    raises; the exit raises in its turn and the session 0 stays open. *)
Example aexit_error_sample :
  ∃ s' : state,
    __aexit__ (Some (Exception "boom"))
      (run_checker [Returns false] (__aenter__ sample_state))
    = Some (Raise (BaseExceptionGroup "unhandled errors in a TaskGroup"
                     [Exception "boom"]), s') ∧
    checker_state s' = Some Cancelled ∧
    closes (trace (env s')) = [].
Proof. vm_compute. by eexists. Qed.

(** Without an exception and with a task that did not fail, the exit
    does close the session. *)
Example aexit_clean_sample :
  ∃ s' : state,
    __aexit__ None (run_checker [Returns false] (__aenter__ sample_state))
    = Some (Ok PyNone, s') ∧
    closes (trace (env s')) = [SessionClose 0].
Proof. vm_compute. by eexists. Qed.

(** The events of one turn of a pending task: the call to
    [update_tokens] comes first; the sleep, when the turn reaches it,
    comes last, after the construction of a session if there is one. *)
Lemma step_task_trace (o : outcome) (s : state) :
  in_scope s → is_pending s = true →
  ∃ rest : list event,
    trace (env (step_task o s)) = trace (env s) ++ UpdateTokens :: rest ∧
    (rest = [] ∧ is_pending (step_task o s) = false ∨
     rest = [Sleep 30] ∨
     ∃ id : nat, rest = [NewClientSession id; Sleep 30]).
Proof.
  intros H Hp. open_scope s H.
  step_cases; rewrite <- ?app_assoc; simpl; eexists; split; try reflexivity;
    eauto.
Qed.

(** The first turn of the task takes place when the scope is entered:
    no time passes before it. *)
Lemma first_turn_now (o : outcome) (s0 : state) :
  now (env (step_task o (__aenter__ s0))) = now (env s0).
Proof. open_state s0. by step_cases. Qed.

(** A turn of the checker keeps the current session, or it replaces it
    by a session constructed in that turn; the events of such a turn
    are the call, the construction and the sleep. *)
Lemma step_task_rotation (o : outcome) (s : state) :
  _session (self (step_task o s)) = _session (self s) ∨
  ∃ id : nat,
    _session (self (step_task o s)) = ClientSession id ∧
    trace (env (step_task o s))
    = trace (env s) ++ [UpdateTokens; NewClientSession id; Sleep 30].
Proof.
  open_state s.
  match goal with t : option Task |- _ => destruct t as [[st mc]|] end;
    [|by left].
  match goal with g : option TaskGroup |- _ => destruct g end;
    destruct mc; step_cases; rewrite <- ?app_assoc; simpl; eauto.
Qed.

Lemma init_closes
    (app_key app_secret callback_url tokens_file : string) (timeout : Z)
    (capture_callback shared : bool) (call_on_notify : option nat)
    (w : world) :
  closes (trace (snd (__init__ app_key app_secret callback_url tokens_file
                        timeout capture_callback shared call_on_notify w)))
  = closes (trace w).
Proof.
  unfold __init__. destruct (timeout <=? 0); [done|].
  destruct shared; simpl; rewrite ?closes_app; simpl; by rewrite ?app_nil_r.
Qed.

(** The exit of the task group, after the cancellation of a pending
    task and without an exception of the scope, returns [None]. *)
Lemma TaskGroup_aexit_pending (s : state) :
  in_scope s → is_pending s = true →
  ∃ s1 s2 : state,
    Task_cancel s = Some (Ok true, s1) ∧
    TaskGroup___aexit__ None s1 = Some (Ok PyNone, s2).
Proof.
  intros H Hp. open_scope s H. exit_cases.
  destruct st; try done; destruct_and?; subst; simpl;
    eexists _, _; (split; [reflexivity|]); by simpl.
Qed.

(** C5, as the specification states it, fails: in the first turn of the
    checker the call to [update_tokens] comes before the sleep of 30
    seconds, and a scope left during that first sleep (the time is
    still 0, the task would wake up at 30) has made one call, not
    none. *)
Lemma checker_order_counterexample :
  let s := step_task (Returns false) (__aenter__ sample_state) in
  trace (env s) = trace (env sample_state) ++ [UpdateTokens; Sleep 30] ∧
  checker_state s = Some (Suspended 30) ∧
  now (env s) = 0 ∧
  ∃ s' : state,
    __aexit__ None s = Some (Ok PyNone, s') ∧
    checker_state s' = Some Cancelled ∧
    refresh_calls (trace (env s')) = 1%nat.
Proof. vm_compute. repeat (split; [done|]). by eexists. Qed.

(** C5, amended: each turn of the loop calls [update_tokens] first and
    sleeps 30 seconds afterwards. So the checker has made no call only
    when the scope is left before the task had its first turn; a scope
    left after that first turn, when no time has passed yet, has made
    exactly one call. *)
Theorem checker_checks_then_sleeps
    (s0 : state) (os : list outcome) (o : outcome) :
  let s := run_checker os (__aenter__ s0) in
  (is_pending s = true →
   ∃ rest : list event,
     trace (env (step_task o s)) = trace (env s) ++ UpdateTokens :: rest ∧
     (rest = [] ∧ is_pending (step_task o s) = false ∨
      rest = [Sleep 30] ∨
      ∃ id : nat, rest = [NewClientSession id; Sleep 30])) ∧
  (∃ (r : pyresult pyval) (s' : state),
     __aexit__ None (__aenter__ s0) = Some (r, s') ∧
     checker_state s' = Some Cancelled ∧
     refresh_calls (trace (env s')) = refresh_calls (trace (env s0))) ∧
  (let s1 := step_task o (__aenter__ s0) in
   now (env s1) = now (env s0) ∧
   ∃ (r : pyresult pyval) (s' : state),
     __aexit__ None s1 = Some (r, s') ∧
     now (env s') = now (env s0) ∧
     refresh_calls (trace (env s')) = S (refresh_calls (trace (env s0)))).
Proof.
  intros s. split; [|split].
  - intros Hp. apply step_task_trace; [|done].
    apply run_checker_in_scope, aenter_in_scope.
  - destruct (aexit_pending (__aenter__ s0)) as (r & s' & Hx & Hc & _);
      [apply aenter_in_scope | done |].
    exists r, s'. split; [done|]. split; [done|].
    by apply aexit_frame in Hx as (-> & _).
  - intros s1. split; [apply first_turn_now|].
    assert (in_scope s1) as Hin.
    { apply step_task_in_scope, aenter_in_scope. }
    destruct (aexit_returns None s1 Hin) as (r & s' & Hx).
    exists r, s'. split; [done|].
    apply aexit_frame in Hx as (-> & _ & _ & ->).
    split; [apply first_turn_now|].
    subst s1. rewrite step_task_refresh_calls by apply aenter_in_scope.
    simpl. lia.
Qed.

Lemma checker_checks_then_sleeps_witness :
  is_pending (run_checker [Returns false] (__aenter__ sample_state)) = true ∧
  ∃ rest : list event,
    trace (env (run_checker [Returns false; Returns false]
                  (__aenter__ sample_state)))
    = trace (env (run_checker [Returns false] (__aenter__ sample_state)))
      ++ UpdateTokens :: rest.
Proof.
  split; [reflexivity|].
  destruct (proj1 (checker_checks_then_sleeps sample_state [Returns false]
                     (Returns false)) eq_refl) as (rest & Ht & _).
  exists rest. exact Ht.
Defined.

(** C6: no turn of the checker closes a session; a turn that replaces
    the current session only constructs the new one (its events are the
    call, the construction and the sleep), so the session that was
    current stays open. Neither the constructor nor [__aenter__] closes
    anything. The only close is the one of [__aexit__], and it is
    applied to the session that is current when the scope is left. *)
Theorem rotation_never_closes
    (s0 : state) (os : list outcome) (o : outcome) :
  let s := run_checker os (__aenter__ s0) in
  let s' := step_task o s in
  closes (trace (env s')) = closes (trace (env s)) ∧
  (_session (self s') = _session (self s) ∨
   ∃ id : nat,
     _session (self s') = ClientSession id ∧
     trace (env s')
     = trace (env s) ++ [UpdateTokens; NewClientSession id; Sleep 30]) ∧
  closes (trace (env s)) = closes (trace (env s0)) ∧
  (∀ (app_key app_secret callback_url tokens_file : string) (timeout : Z)
     (capture_callback shared : bool) (call_on_notify : option nat)
     (w : world),
     closes (trace (snd (__init__ app_key app_secret callback_url tokens_file
                           timeout capture_callback shared call_on_notify w)))
     = closes (trace w)) ∧
  (∀ (exc : option exn) (r : pyresult pyval) (s'' : state),
     __aexit__ exc s' = Some (r, s'') →
     closes (trace (env s'')) = closes (trace (env s')) ∨
     ∃ id : nat,
       _session (self s') = ClientSession id ∧
       closes (trace (env s'')) = closes (trace (env s')) ++ [SessionClose id]).
Proof.
  intros s s'. split; [apply step_task_closes|].
  split; [apply step_task_rotation|]. split; [|split].
  - subst s. by rewrite run_checker_closes.
  - apply init_closes.
  - intros exc r s'' Hx. by apply aexit_closes in Hx.
Qed.

(** On a client whose attribute [use_session] was assigned [True], a
    turn in which [update_tokens] returns [True] replaces session 0 by
    session 1; the scope is then left, and the close is the one of
    session 1. *)
Lemma rotation_never_closes_witness :
  let s' := step_task (Returns true) (__aenter__ prepared_state) in
  ∃ s'' : state,
    __aexit__ None s' = Some (Ok PyNone, s'') ∧
    (closes (trace (env s'')) = closes (trace (env s')) ∨
     ∃ id : nat,
       _session (self s') = ClientSession id ∧
       closes (trace (env s'')) = closes (trace (env s')) ++ [SessionClose id]).
Proof.
  eexists. split; [reflexivity|].
  apply (proj2 (proj2 (proj2 (proj2
           (rotation_never_closes prepared_state [] (Returns true))))))
    with (exc := None) (r := Ok PyNone).
  reflexivity.
Defined.

Example rotation_sample :
  let s := __aenter__ prepared_state in
  let s' := step_task (Returns true) s in
  _session (self s) = ClientSession 0 ∧
  _session (self s') = ClientSession 1 ∧
  closes (trace (env s')) = [] ∧
  ∃ s'' : state,
    __aexit__ None s' = Some (Ok PyNone, s'') ∧
    closes (trace (env s'')) = [SessionClose 1].
Proof. vm_compute. repeat (split; [done|]). by eexists. Qed.

(** C7: when the scope is left while the checker sleeps, the task is
    cancelled at its [await]: it ends without another call to
    [update_tokens] and without constructing or replacing a session.
    The exit of the task group returns [None], the group holds no
    error, and the exit of the client returns [None] once it has closed
    the current session. *)
Theorem cancel_during_sleep (s0 : state) (os : list outcome) (wake_at : Z) :
  let s := run_checker os (__aenter__ s0) in
  checker_state s = Some (Suspended wake_at) →
  ∃ (r : pyresult pyval) (s' : state),
    __aexit__ None s = Some (r, s') ∧
    checker_state s' = Some Cancelled ∧
    refresh_calls (trace (env s')) = refresh_calls (trace (env s)) ∧
    sessions_opened (trace (env s')) = sessions_opened (trace (env s)) ∧
    _session (self s') = _session (self s) ∧
    group_errors s' = [] ∧
    (∃ s1 s2 : state,
       Task_cancel s = Some (Ok true, s1) ∧
       TaskGroup___aexit__ None s1 = Some (Ok PyNone, s2)) ∧
    (∀ id : nat,
       _session (self s) = ClientSession id →
       r = Ok PyNone ∧
       trace (env s') = trace (env s) ++ [TaskCancel; SessionClose id]).
Proof.
  intros s Hst.
  assert (in_scope s) as Hin.
  { apply run_checker_in_scope, aenter_in_scope. }
  assert (is_pending s = true) as Hp.
  { unfold is_pending. by rewrite Hst. }
  destruct (aexit_pending s Hin Hp) as (r & s' & Hx & Hc & He & Hs & _ & Hr).
  exists r, s'. split; [done|]. split; [done|].
  destruct (aexit_frame _ _ _ _ Hx) as (Hrc & Hso & _ & _).
  repeat (split; [done|]).
  split; [by apply TaskGroup_aexit_pending|].
  intros id Hid. by rewrite Hid in Hr.
Qed.

Lemma cancel_during_sleep_witness :
  let s := run_checker [Returns false] (__aenter__ sample_state) in
  checker_state s = Some (Suspended 30) ∧
  ∃ (r : pyresult pyval) (s' : state),
    __aexit__ None s = Some (r, s') ∧
    checker_state s' = Some Cancelled ∧
    refresh_calls (trace (env s')) = refresh_calls (trace (env s)).
Proof.
  split; [reflexivity|].
  destruct (cancel_during_sleep sample_state [Returns false] 30 eq_refl)
    as (r & s' & Hx & Hc & Hr & _).
  by exists r, s'.
Defined.
